(** * Smart Bookmark App: the client-side synchronisation model

    A shallow embedding of [src/lib/supabase.ts] (the bookmark store client
    and the change-feed subscriber) and of the [Home] component of
    [src/app/page.tsx] (the reconciliation layer), followed by the properties
    of the specification that concern them.

    Conventions.
    - An [async] function of the source is a computation in [Async]: it
      threads the [World] (the remote service, the browser console, the
      requests sent so far) and either returns a value or throws.
    - A React state setter call is an [Action]; a handler returns the actions
      it dispatches, and [reduce] applies them to the component state.  The
      updater form [setBookmarks((prev) => ...)] is kept as a function of the
      list at the time the action is applied.
    - A call that nobody awaits is a [Flight] of the [Page]: its request is
      answered, and its continuation runs, in steps of their own. *)

From Stdlib Require Import String List ZArith Bool Lia Permutation Sorted.
Import ListNotations.
Open Scope string_scope.

Set Implicit Arguments.

(** ** Data model ([@/types]) *)

(** A row of [public.bookmarks].  [created_at] is the server timestamp; only
    its order matters here, so it is kept as an integer instant. *)
Record Bookmark := mkBookmark {
  id : string;
  user_id : string;
  title : string;
  url : string;
  created_at : Z
}.

(** The authenticated principal ([User] of supabase-js), reduced to the
    fields the component reads. *)
Module User.
Record t := mk { id : string; email : string }.
End User.

(** The payload the push channel hands to the callback: [payload.eventType],
    [payload.new] and [payload.old].  A snapshot the event does not carry is
    the empty record. *)
Record Payload := mkPayload {
  eventType : string;
  new : Bookmark;
  old : Bookmark
}.

Definition empty_record : Bookmark := mkBookmark EmptyString EmptyString EmptyString EmptyString 0.

(** The [{ data, error }] pair every supabase-js call resolves to. *)
Record Response (A : Type) := mkResponse {
  data : option A;
  error : option string
}.

(** The channel built by [subscribeToBookmarks]. *)
Record Channel := mkChannel {
  topic : string;
  event : string;
  schema : string;
  table : string;
  filter : string
}.

(** ** The remote collaborator *)

(** The managed backend as far as the client can observe it: the table, the
    current session, whether it answers requests with an error, and the
    column defaults [gen_random_uuid()] and [NOW()]. *)
Record Backend := mkBackend {
  rows : list Bookmark;
  session : option User.t;
  outage : option string;
  uuid : nat -> string;
  issued : nat;
  clock : Z
}.

(** [ORDER BY created_at DESC]: insertion into a list kept newest first. *)
Fixpoint insert_desc (b : Bookmark) (l : list Bookmark) : list Bookmark :=
  match l with
  | [] => [b]
  | c :: l' =>
      if (created_at c <=? created_at b)%Z then b :: c :: l'
      else c :: insert_desc b l'
  end.

Fixpoint order_desc (l : list Bookmark) : list Bookmark :=
  match l with
  | [] => []
  | b :: l' => insert_desc b (order_desc l')
  end.

(** [from('bookmarks').select('*').eq('user_id', userId)
      .order('created_at', { ascending: false })] *)
Definition pg_select (userId : string) (be : Backend)
  : Response (list Bookmark) :=
  match outage be with
  | Some e => mkResponse None (Some e)
  | None =>
      mkResponse
        (Some (order_desc
                 (List.filter (fun r => user_id r =? userId) (rows be))))
        None
  end.

(** [from('bookmarks').insert([{ user_id, title, url }]).select().single()]:
    the service fills in [id] and [created_at]. *)
Definition pg_insert (userId ttl link : string) (be : Backend)
  : Response Bookmark * Backend :=
  match outage be with
  | Some e => (mkResponse None (Some e), be)
  | None =>
      let row := mkBookmark (uuid be (issued be)) userId ttl link (clock be) in
      (mkResponse (Some row) None,
       mkBackend (row :: rows be) (session be) (outage be) (uuid be)
                 (S (issued be)) (clock be + 1))
  end.

(** [from('bookmarks').delete().eq('id', bookmarkId)]; deleting a row that is
    not there is not an error. *)
Definition pg_delete (bookmarkId : string) (be : Backend)
  : Response unit * Backend :=
  match outage be with
  | Some e => (mkResponse None (Some e), be)
  | None =>
      (mkResponse None None,
       mkBackend (List.filter (fun r => negb (id r =? bookmarkId)) (rows be))
                 (session be) (outage be) (uuid be) (issued be) (clock be))
  end.

(** ** Effects *)

(** What a function of the source does to the outside, in order. *)
Inductive Effect :=
| ConsoleWarn (msg : string)
| ConsoleLog (msg : string)
| ConsoleError (msg err : string)
| AuthSignInWithOAuth (provider : string) (redirectTo : option string)
| AuthSignOut
| AuthGetUser
| AuthGetSession
| FromSelect (tbl userId : string)
| FromInsert (tbl userId ttl link : string)
| FromDelete (tbl bookmarkId : string)
| ChannelSubscribe (ch : Channel)
| ChannelUnsubscribe (ch : Channel).

(** The effects that reach the remote collaborator. *)
Definition is_remote (e : Effect) : bool :=
  match e with
  | ConsoleWarn _ | ConsoleLog _ | ConsoleError _ _ => false
  | _ => true
  end.

Record World := mkWorld {
  backend : Backend;
  window_origin : option string;
  trace : list Effect
}.

Inductive Outcome (A : Type) :=
| Returned (a : A)
| Thrown (e : string).

Arguments Thrown {A} e.

Definition Async (A : Type) : Type := World -> Outcome A * World.

Definition ret {A} (a : A) : Async A := fun w => (Returned a, w).

Definition throw {A} (e : string) : Async A := fun w => (Thrown e, w).

Definition bind {A B} (m : Async A) (k : A -> Async B) : Async B :=
  fun w =>
    match m w with
    | (Returned a, w') => k a w'
    | (Thrown e, w') => (Thrown e, w')
    end.

Declare Scope async_scope.
Delimit Scope async_scope with async.
Notation "x <- m ;; k" := (bind m (fun x => k))
  (at level 61, m at next level, right associativity) : async_scope.
Notation "m ;;; k" := (bind m (fun _ => k))
  (at level 61, right associativity) : async_scope.
Open Scope async_scope.

Definition emit (e : Effect) : Async unit :=
  fun w => (Returned tt, mkWorld (backend w) (window_origin w) (trace w ++ [e])).

(** A request to the service: it is recorded, and the service's answer may
    change the service. *)
Definition request {A} (e : Effect) (f : Backend -> A * Backend) : Async A :=
  fun w =>
    let (a, be) := f (backend w) in
    (Returned a, mkWorld be (window_origin w) (trace w ++ [e])).

Definition query {A} (e : Effect) (f : Backend -> A) : Async A :=
  request e (fun be => (f be, be)).

(** The remote operations performed between two worlds. *)
Definition remote_ops (w w' : World) : list Effect :=
  List.filter is_remote (skipn (length (trace w)) (trace w')).

(** ** [src/lib/supabase.ts] *)

Record Env := mkEnv {
  NEXT_PUBLIC_SUPABASE_URL : option string;
  NEXT_PUBLIC_SUPABASE_ANON_KEY : option string
}.

(** [process.env.X || '']: an unset and an empty variable are alike. *)
Definition or_empty (v : option string) : string :=
  match v with
  | Some s => s
  | None => EmptyString
  end.

Definition supabaseUrl (env : Env) : string :=
  or_empty (NEXT_PUBLIC_SUPABASE_URL env).

Definition supabaseAnonKey (env : Env) : string :=
  or_empty (NEXT_PUBLIC_SUPABASE_ANON_KEY env).

Record Client := mkClient {
  client_url : string;
  client_key : string;
  eventsPerSecond : nat
}.

Section CreateSupabaseClient.

(** [createClient] of supabase-js, called with the url, the key and the
    [eventsPerSecond] option: it builds the client or throws (on a value
    that is not an HTTP(S) URL, for one).  The library is not part of this
    repository, so its constructor is a parameter. *)
Variable createClient : string -> string -> nat -> Outcome Client.

Definition createSupabaseClient (env : Env) : Async (option Client) :=
  if (supabaseUrl env =? EmptyString) || (supabaseAnonKey env =? EmptyString) then
    emit (ConsoleWarn "Supabase credentials not configured. Using mock client.") ;;;
    ret None
  else
    fun w =>
      match createClient (supabaseUrl env) (supabaseAnonKey env) 10 with
      | Returned c => (Returned (Some c), w)
      | Thrown e => (Thrown e, w)
      end.

End CreateSupabaseClient.

(** Whether a channel on [tp] is subscribed after the effects [t]: the last
    subscription on that topic has not been followed by its unsubscription. *)
Definition subscribed (tp : string) (t : list Effect) : bool :=
  fold_left
    (fun live e =>
       match e with
       | ChannelSubscribe ch => if topic ch =? tp then true else live
       | ChannelUnsubscribe ch => if topic ch =? tp then false else live
       | _ => live
       end)
    t false.

(** The answers of the identity provider. *)
Definition auth_sign_in (be : Backend) : Response string :=
  match outage be with
  | Some e => mkResponse None (Some e)
  | None => mkResponse (Some "google") None
  end.

Definition auth_sign_out (be : Backend) : option string * Backend :=
  match outage be with
  | Some e => (Some e, be)
  | None =>
      (None,
       mkBackend (rows be) None (outage be) (uuid be) (issued be) (clock be))
  end.

Definition auth_get_user (be : Backend) : option User.t * option string :=
  match outage be with
  | Some e => (None, Some e)
  | None => (session be, None)
  end.

Section SupabaseModule.

(** [export const supabase = createSupabaseClient()]: [None] is [null]. *)
Variable supabase : option Client.

Definition signInWithGoogle : Async (Response string) :=
  match supabase with
  | None => throw "Supabase not configured"
  | Some _ =>
      fun w =>
        query
          (AuthSignInWithOAuth "google"
             (option_map (fun origin => origin ++ "/auth/callback")
                (window_origin w)))
          auth_sign_in w
  end.

Definition signOut : Async (option string) :=
  match supabase with
  | None => throw "Supabase not configured"
  | Some _ => request AuthSignOut auth_sign_out
  end.

Definition getCurrentUser : Async (option User.t * option string) :=
  match supabase with
  | None => ret (None, Some "Supabase not configured")
  | Some _ => query AuthGetUser auth_get_user
  end.

Definition getBookmarks (userId : string) : Async (list Bookmark) :=
  match supabase with
  | None => ret []
  | Some _ =>
      r <- query (FromSelect "bookmarks" userId) (pg_select userId) ;;
      match error r with
      | Some e => emit (ConsoleError "Error fetching bookmarks:" e) ;;; ret []
      | None =>
          ret (match data r with
               | Some d => d
               | None => []
               end)
      end
  end.

Definition addBookmark (userId ttl link : string) : Async (option Bookmark) :=
  match supabase with
  | None => ret None
  | Some _ =>
      r <- request (FromInsert "bookmarks" userId ttl link)
             (pg_insert userId ttl link) ;;
      match error r with
      | Some e => emit (ConsoleError "Error adding bookmark:" e) ;;; ret None
      | None => ret (data r)
      end
  end.

Definition deleteBookmark (bookmarkId : string) : Async bool :=
  match supabase with
  | None => ret false
  | Some _ =>
      r <- request (FromDelete "bookmarks" bookmarkId) (pg_delete bookmarkId) ;;
      match error r with
      | Some e => emit (ConsoleError "Error deleting bookmark:" e) ;;; ret false
      | None => ret true
      end
  end.

(** The callback is kept by the channel on the client; the service only sees
    the channel parameters.  The client keeps one channel per topic: while
    the topic is still subscribed, [channel(...)] hands back that channel and
    [subscribe()] on it throws (the wording of the message is the library's
    and no statement below depends on it). *)
Definition subscribeToBookmarks {CB : Type} (userId : string) (callback : CB)
  : Async Channel :=
  match supabase with
  | None => throw "Supabase not initialized"
  | Some _ =>
      let channel :=
        mkChannel "bookmarks-changes" "*" "public" "bookmarks"
                  ("user_id=eq." ++ userId) in
      fun w =>
        if subscribed "bookmarks-changes" (trace w) then
          throw "tried to subscribe multiple times" w
        else
          (emit (ChannelSubscribe channel) ;;; ret channel) w
  end.

End SupabaseModule.

(** ** The [Home] component ([src/app/page.tsx]) *)

(** The four [useState] cells, and the channel held by the closure of the
    live subscription effect (what its cleanup will unsubscribe). *)
Record Home := mkHome {
  user : option User.t;
  bookmarks : list Bookmark;
  loading : bool;
  configError : option string;
  subscription : option Channel
}.

(** [useState] initial values. *)
Definition initialHome : Home := mkHome None [] true None None.

Inductive Action :=
| SetUser (u : option User.t)
| SetBookmarks (f : list Bookmark -> list Bookmark)
| SetLoading (b : bool)
| SetConfigError (e : option string).

(** A call of [loadBookmarks()] that nobody awaits: its [getBookmarks]
    request is out for the user of its closure ([Asked]), or the data has
    come back and [setBookmarks(data)] has yet to run ([Got]). *)
Inductive Flight :=
| Asked (u : User.t)
| Got (d : list Bookmark).

Definition dispatch (h : Home) (a : Action) : Home :=
  match a with
  | SetUser u =>
      mkHome u (bookmarks h) (loading h) (configError h) (subscription h)
  | SetBookmarks f =>
      mkHome (user h) (f (bookmarks h)) (loading h) (configError h)
             (subscription h)
  | SetLoading b =>
      mkHome (user h) (bookmarks h) b (configError h) (subscription h)
  | SetConfigError e =>
      mkHome (user h) (bookmarks h) (loading h) e (subscription h)
  end.

Definition reduce (acts : list Action) (h : Home) : Home :=
  fold_left dispatch acts h.

Definition with_subscription (sub : option Channel) (h : Home) : Home :=
  mkHome (user h) (bookmarks h) (loading h) (configError h) sub.

(** The callback handed to [subscribeToBookmarks]. *)
Definition realtimeCallback (payload : Payload) : Async (list Action) :=
  emit (ConsoleLog "Real-time update received:") ;;;
  if eventType payload =? "INSERT" then
    ret [SetBookmarks (fun prev => new payload :: prev)]
  else if eventType payload =? "DELETE" then
    ret [SetBookmarks
           (fun prev =>
              List.filter (fun b => negb (id b =? id (old payload))) prev)]
  else if eventType payload =? "UPDATE" then
    ret [SetBookmarks
           (fun prev =>
              List.map
                (fun b => if id b =? id (new payload) then new payload else b)
                prev)]
  else
    ret [].

Definition auth_get_session (be : Backend) : option User.t := session be.

Section HomeComponent.

Variable supabase : option Client.

(** [checkUser], run once on mount. *)
Definition checkUser : Async (list Action) :=
  match supabase with
  | None =>
      ret [SetConfigError
             (Some "Supabase is not configured. Please set up your environment variables.");
           SetLoading false]
  | Some _ =>
      s <- query AuthGetSession auth_get_session ;;
      ret [SetUser s; SetLoading false]
  end.

(** The [onAuthStateChange] listener. *)
Definition authStateChange (s : option User.t) : list Action := [SetUser s].

Definition loadBookmarks (u : option User.t) : Async (list Action) :=
  match u with
  | None => ret []
  | Some usr =>
      d <- getBookmarks supabase (User.id usr) ;;
      ret [SetBookmarks (fun _ => d)]
  end.

(** "Load bookmarks when user changes": with a user the effect calls
    [loadBookmarks()] and does not await it, so nothing is dispatched now and
    one load is in flight; with none it empties the list at once. *)
Definition userEffect (u : option User.t) : list Action * list Flight :=
  match u with
  | Some usr => ([], [Asked usr])
  | None => ([SetBookmarks (fun _ => [])], [])
  end.

(** "Subscribe to real-time updates": the effect body ... *)
Definition subscriptionEffect (u : option User.t) : Async (option Channel) :=
  match u, supabase with
  | Some usr, Some _ =>
      ch <- subscribeToBookmarks supabase (User.id usr) realtimeCallback ;;
      ret (Some ch)
  | _, _ => ret None
  end.

(** ... and its cleanup, [subscription.unsubscribe()]. *)
Definition subscriptionCleanup (sub : option Channel) : Async unit :=
  match sub with
  | Some ch => emit (ChannelUnsubscribe ch)
  | None => ret tt
  end.

Definition handleSignIn : Async (list Action) :=
  _ <- signInWithGoogle supabase ;;
  ret [].

Definition handleSignOut : Async (list Action) :=
  _ <- signOut supabase ;;
  ret [SetUser None; SetBookmarks (fun _ => [])].

Definition handleAddBookmark (u : option User.t) (ttl link : string)
  : Async (list Action) :=
  match u with
  | None => ret []
  | Some usr =>
      newBookmark <- addBookmark supabase (User.id usr) ttl link ;;
      match newBookmark with
      | Some nb => ret [SetBookmarks (fun prev => nb :: prev)]
      | None => ret []
      end
  end.

Definition handleDeleteBookmark (bookmarkId : string) : Async (list Action) :=
  success <- deleteBookmark supabase bookmarkId ;;
  if success then
    ret [SetBookmarks
           (fun prev => List.filter (fun b => negb (id b =? bookmarkId)) prev)]
  else
    ret [].

(** What React does after a render in which [user] changed: the cleanup of
    the previous subscription effect, then the two effects that list [user]
    as their dependency, in source order.  The result is the component state
    and the loads the user effect left in flight. *)
Definition rerenderUser (h : Home) : Async (Home * list Flight) :=
  subscriptionCleanup (subscription h) ;;;
  let (acts, fired) := userEffect (user h) in
  sub <- subscriptionEffect (user h) ;;
  ret (reduce acts (with_subscription sub h), fired).

(** A principal change delivered by the identity session holder. *)
Definition principalChange (s : option User.t) (h : Home)
  : Async (Home * list Flight) :=
  rerenderUser (reduce (authStateChange s) h).

(** The sign-out control. *)
Definition clickSignOut (h : Home) : Async (Home * list Flight) :=
  acts <- handleSignOut ;;
  rerenderUser (reduce acts h).

End HomeComponent.

(** ** The reconciliation layer as a transition system *)

(** The events the service pushes for a row. *)
Definition insert_event (b : Bookmark) : Payload :=
  mkPayload "INSERT" b empty_record.

Definition update_event (b o : Bookmark) : Payload :=
  mkPayload "UPDATE" b o.

Definition delete_event (o : Bookmark) : Payload :=
  mkPayload "DELETE" empty_record o.

(** The [postgres_changes] filter of a channel, applied by the service to
    the new snapshot.  A delete event carries no new snapshot and is let
    through. *)
Definition channel_delivers (ch : Channel) (p : Payload) : bool :=
  if eventType p =? "DELETE" then true
  else filter ch =? "user_id=eq." ++ user_id (new p).

Inductive Input :=
| Submit (ttl link : string)
| ClickDelete (bookmarkId : string)
| Deliver (payload : Payload).

Definition handle (supabase : option Client) (i : Input) (h : Home)
  : Async Home :=
  match i with
  | Submit ttl link =>
      acts <- handleAddBookmark supabase (user h) ttl link ;;
      ret (reduce acts h)
  | ClickDelete bookmarkId =>
      acts <- handleDeleteBookmark supabase bookmarkId ;;
      ret (reduce acts h)
  | Deliver payload =>
      acts <- realtimeCallback payload ;;
      ret (reduce acts h)
  end.

(** A payload reaches the callback only through the live channel. *)
Definition admissible (h : Home) (i : Input) : bool :=
  match i with
  | Deliver payload =>
      match subscription h with
      | Some ch => channel_delivers ch payload
      | None => false
      end
  | _ => true
  end.

(** The page: the component state and the loads in flight. *)
Record Page := mkPage {
  home : Home;
  flights : list Flight
}.

(** What can happen to the page: the identity session holder reports a
    principal, the sign-out control is used, an input is handled, the
    service answers the request of the [n]-th load in flight, the
    continuation of the [n]-th load runs, another session changes the
    service. *)
Inductive Step :=
| Principal (s : option User.t)
| ClickSignOut
| Do (i : Input)
| Answer (n : nat)
| Land (n : nat)
| Elsewhere (be : Backend).

Definition put_flight (n : nat) (f : Flight) (l : list Flight) : list Flight :=
  firstn n l ++ f :: skipn (S n) l.

Definition drop_flight (n : nat) (l : list Flight) : list Flight :=
  firstn n l ++ skipn (S n) l.

(** One step.  An answer comes back for whichever load the service served,
    and [setBookmarks(data)] runs for whichever load resumes: nothing
    compares the load's user with the current one.  [Answer] and [Land] at a
    position that holds no such load do nothing. *)
Definition step (supabase : option Client) (s : Step) (p : Page) : Async Page :=
  match s with
  | Principal u =>
      r <- principalChange supabase u (home p) ;;
      ret (mkPage (fst r) (flights p ++ snd r))
  | ClickSignOut =>
      r <- clickSignOut supabase (home p) ;;
      ret (mkPage (fst r) (flights p ++ snd r))
  | Do i =>
      h' <- handle supabase i (home p) ;;
      ret (mkPage h' (flights p))
  | Answer n =>
      match nth_error (flights p) n with
      | Some (Asked u) =>
          d <- getBookmarks supabase (User.id u) ;;
          ret (mkPage (home p) (put_flight n (Got d) (flights p)))
      | _ => ret p
      end
  | Land n =>
      match nth_error (flights p) n with
      | Some (Got d) =>
          ret (mkPage (dispatch (home p) (SetBookmarks (fun _ => d)))
                      (drop_flight n (flights p)))
      | _ => ret p
      end
  | Elsewhere be =>
      fun w => (Returned p, mkWorld be (window_origin w) (trace w))
  end.

Fixpoint run (supabase : option Client) (ss : list Step) (p : Page)
  : Async Page :=
  match ss with
  | [] => ret p
  | s :: ss' => p' <- step supabase s p ;; run supabase ss' p'
  end.

(** The steps that can happen while the principal stays the same. *)
Definition within (p : Page) (s : Step) : bool :=
  match s with
  | Principal _ | ClickSignOut => false
  | Do i => admissible (home p) i
  | Answer _ | Land _ | Elsewhere _ => true
  end.

(** The pages seen while [P] is signed in, [p0] being the page on which [P]
    signed in, with whatever list and loads in flight it had. *)
Inductive running (supabase : option Client) (P : User.t) (p0 : Page)
  : World -> Page -> Prop :=
| run_principal : forall w p w',
    step supabase (Principal (Some P)) p0 w = (Returned p, w') ->
    running supabase P p0 w' p
| run_step : forall s w p w' p',
    running supabase P p0 w p ->
    within p s = true ->
    step supabase s p w = (Returned p', w') ->
    running supabase P p0 w' p'.

(** The states of the component while [P] is signed in. *)
Definition reachable (supabase : option Client) (P : User.t) (w : World)
           (h : Home) : Prop :=
  exists p0 fl, running supabase P p0 w (mkPage h fl).

(** Occurrences of an [id] in a list of records. *)
Definition occurrences (i : string) (l : list Bookmark) : nat :=
  length (List.filter (fun b => id b =? i) l).

Definition present (i : string) (l : list Bookmark) : bool :=
  existsb (fun b => id b =? i) l.

Definition owned_by (uid : string) (l : list Bookmark) : bool :=
  forallb (fun b => user_id b =? uid) l.

(** Newest first. *)
Definition newest_first (l : list Bookmark) : Prop :=
  StronglySorted (fun a b => (created_at b <= created_at a)%Z) l.

(** ** Concrete data used in the examples *)

Definition alice : User.t := User.mk "u1" "alice@example.com".
Definition bob : User.t := User.mk "u2" "bob@example.com".

Definition client0 : Client := mkClient "https://x.supabase.co" "anon" 10.

Definition bmA : Bookmark := mkBookmark "a" "u1" "A" "https://a.example" 1.
Definition bmB : Bookmark := mkBookmark "b" "u1" "B" "https://b.example" 2.
Definition bmC : Bookmark := mkBookmark "c" "u2" "C" "https://c.example" 3.

Definition backend_up : Backend :=
  mkBackend [bmA; bmC; bmB] (Some alice) None (fun _ => "n") 0 10.

Definition backend_down : Backend :=
  mkBackend [bmA; bmC; bmB] (Some alice) (Some "503") (fun _ => "n") 0 10.

Definition world_up : World := mkWorld backend_up (Some "http://localhost:3000") [].
Definition world_down : World := mkWorld backend_down (Some "http://localhost:3000") [].

Definition home_alice : Home :=
  mkHome (Some alice) [bmB; bmA] false None
         (Some (mkChannel "bookmarks-changes" "*" "public" "bookmarks"
                          "user_id=eq.u1")).

(** The channel [subscribeToBookmarks] opens for a principal. *)
Definition channel_for (P : User.t) : Channel :=
  mkChannel "bookmarks-changes" "*" "public" "bookmarks"
            ("user_id=eq." ++ User.id P).


(** ** What [Home] renders *)

(** The four returns of the component body: the spinner, the configuration
    notice, and the page with either the signed-in content (user card, form
    and list) or the invitation to sign in. *)
Inductive View :=
| Spinner
| ConfigurationRequired (msg : string)
| SignedIn (u : User.t) (shown : list Bookmark)
| GetStarted.

(** [if (configError)]: [null] and the empty string are both falsy. *)
Definition truthy (e : option string) : bool :=
  match e with
  | Some msg => negb (msg =? EmptyString)
  | None => false
  end.

Definition render (h : Home) : View :=
  if loading h then Spinner
  else if truthy (configError h) then ConfigurationRequired (or_empty (configError h))
  else match user h with
       | Some u => SignedIn u (bookmarks h)
       | None => GetStarted
       end.

(** The first effect on mount: [checkUser()] applied to the initial state. *)
Definition mount (supabase : option Client) : Async Home :=
  acts <- checkUser supabase ;;
  ret (reduce acts initialHome).

(** The sign-in control. *)
Definition clickSignIn (supabase : option Client) (h : Home) : Async Home :=
  acts <- handleSignIn supabase ;;
  ret (reduce acts h).

Definition home_unconfigured : Home :=
  mkHome None [] false (Some "Supabase is not configured.") None.

(** Alice's page and the world right after she signed in on the sample
    service. *)
Definition home_loaded : Home :=
  mkHome (Some alice) [bmB; bmA] true None (Some (channel_for alice)).

Definition world_loaded : World :=
  mkWorld backend_up (Some "http://localhost:3000")
          [ChannelSubscribe (channel_for alice); FromSelect "bookmarks" "u1"].

(** The world after another session changed the service. *)
Definition elsewhere (be : Backend) (w : World) : World :=
  mkWorld be (window_origin w) (trace w).

(** The page knows of every subscribed channel: the one it holds is on the
    topic of this page, and when it holds none, none is subscribed. *)
Definition coherent (h : Home) (w : World) : Prop :=
  match subscription h with
  | Some ch => topic ch = "bookmarks-changes"
  | None => subscribed "bookmarks-changes" (trace w) = false
  end.



(** The list on screen is the user's rows as the service holds them, in the
    order the service lists them. *)
Definition mirrors (uid : string) (h : Home) (w : World) : Prop :=
  bookmarks h
  = order_desc (List.filter (fun r => user_id r =? uid) (rows (backend w))).

(** The list on screen is what [getBookmarks] would return now. *)
Definition in_sync (supabase : option Client) (uid : string) (h : Home)
           (w : World) : Prop :=
  exists w', getBookmarks supabase uid w = (Returned (bookmarks h), w').

(** ** Proof automation *)

(** Unfolds the store client and the handlers down to the world. *)
Ltac run_async :=
  unfold handle, handleAddBookmark, handleDeleteBookmark, loadBookmarks,
    addBookmark, deleteBookmark, getBookmarks, bind, request, query, emit, ret,
    pg_insert, pg_delete, pg_select;
  simpl.

Ltac run_effects :=
  unfold step, principalChange, clickSignOut, rerenderUser, handleSignOut,
    signOut, userEffect, subscriptionEffect, subscriptionCleanup,
    subscribeToBookmarks, authStateChange, auth_sign_out;
  run_async.

(** * Properties *)

(** ** Lists of records *)

Lemma filter_out_absent (i : string) (l : list Bookmark) :
  present i l = false ->
  List.filter (fun b => negb (id b =? i)) l = l.
Proof.
  unfold present.
  induction l as [|b l IH]; simpl; intro H; [reflexivity|].
  apply orb_false_iff in H as [Hb Hl].
  rewrite Hb; simpl. now rewrite IH.
Qed.

Lemma present_filter_out (i : string) (l : list Bookmark) :
  present i (List.filter (fun b => negb (id b =? i)) l) = false.
Proof.
  unfold present.
  induction l as [|b l IH]; simpl; [reflexivity|].
  destruct (id b =? i) eqn:E; simpl; [exact IH|].
  now rewrite E, IH.
Qed.

Lemma filter_out_twice (i : string) (l : list Bookmark) :
  let f := List.filter (fun b => negb (id b =? i)) in
  f (f l) = f l.
Proof.
  simpl. apply filter_out_absent, present_filter_out.
Qed.

Lemma occurrences_absent (i : string) (l : list Bookmark) :
  present i l = false <-> occurrences i l = 0.
Proof.
  unfold present, occurrences.
  induction l as [|b l IH]; simpl; [tauto|].
  destruct (id b =? i); simpl; [split; discriminate|exact IH].
Qed.

Lemma cons_neq_self {A} (a : A) (l : list A) : a :: l <> l.
Proof.
  intro H. apply (f_equal (@length A)) in H. simpl in H. lia.
Qed.

(** ** Remote events *)

(** X22: the delete branch of the callback is idempotent: delivering the
    same delete event twice gives the state of delivering it once, in which
    the id is absent. *)
Lemma delete_event_idempotent (supabase : option Client) (o : Bookmark)
      (h : Home) (w : World) :
  exists h1 w1 h2 w2,
    handle supabase (Deliver (delete_event o)) h w = (Returned h1, w1)
    /\ handle supabase (Deliver (delete_event o)) h1 w1 = (Returned h2, w2)
    /\ bookmarks h2 = bookmarks h1
    /\ present (id o) (bookmarks h1) = false.
Proof.
  do 4 eexists. split; [reflexivity|]. split; [reflexivity|].
  simpl. split.
  - apply filter_out_twice.
  - apply present_filter_out.
Qed.

(** C1 (code at the failing input): the insert branch of the callback
    prepends the record whether or not its id is already in the list, so
    delivering the same insert event twice leaves the record in the list
    twice more than before, and the state after the second delivery differs
    from the state after the first. *)
Theorem insert_event_applied_twice (supabase : option Client) (b : Bookmark)
        (h : Home) (w : World) :
  exists h1 w1 h2 w2,
    handle supabase (Deliver (insert_event b)) h w = (Returned h1, w1)
    /\ handle supabase (Deliver (insert_event b)) h1 w1 = (Returned h2, w2)
    /\ present (id b) (bookmarks h1) = true
    /\ bookmarks h2 = b :: bookmarks h1
    /\ bookmarks h2 <> bookmarks h1
    /\ occurrences (id b) (bookmarks h2) = 2 + occurrences (id b) (bookmarks h).
Proof.
  do 4 eexists. split; [reflexivity|]. split; [reflexivity|].
  simpl. unfold present, occurrences. simpl.
  rewrite String.eqb_refl. simpl.
  repeat split.
  apply cons_neq_self.
Qed.

(** C6: a remote update event replaces, at the same position, each record
    carrying the event's id, keeps every other record, never changes the
    length of the list, and leaves the list as it is when the id is not
    there. *)
Theorem update_event_in_place (supabase : option Client) (b o : Bookmark)
        (h : Home) (w : World) :
  exists h' w',
    handle supabase (Deliver (update_event b o)) h w = (Returned h', w')
    /\ length (bookmarks h') = length (bookmarks h)
    /\ (forall n,
          nth_error (bookmarks h') n =
          option_map (fun c => if id c =? id b then b else c)
                     (nth_error (bookmarks h) n))
    /\ (if present (id b) (bookmarks h) then In b (bookmarks h')
        else bookmarks h' = bookmarks h).
Proof.
  do 2 eexists. split; [reflexivity|].
  simpl. split; [apply length_map|]. split.
  - intro n. apply nth_error_map.
  - destruct (present (id b) (bookmarks h)) eqn:E; unfold present in E;
      induction (bookmarks h) as [|c l IH]; simpl in *;
      try discriminate; try reflexivity.
    + destruct (id c =? id b); simpl in *; [now left|right; auto].
    + apply orb_false_iff in E as [Ec El].
      rewrite Ec. now rewrite IH.
Qed.

(** ** Local requests *)

(** C2 (the claim fails): with the service answering with an error, the
    delete request for "a" returns and "a" is still in the list. *)
Lemma remove_on_failure_keeps_record :
  exists h' w',
    handle (Some client0) (ClickDelete "a") home_alice world_down
    = (Returned h', w')
    /\ present "a" (bookmarks h') = true
    /\ bookmarks h' = bookmarks home_alice.
Proof.
  do 2 eexists. split; [reflexivity|]. split; reflexivity.
Qed.

(** C2 (amended): the delete request never throws; the list is filtered
    exactly when [deleteBookmark] returns [true], which is when the client is
    configured and the service reports no error, and then no record with
    that id remains; otherwise the component state is unchanged. *)
Theorem remove_follows_remote_outcome (supabase : option Client)
        (bookmarkId : string) (h : Home) (w : World) :
  exists ok h' w',
    deleteBookmark supabase bookmarkId w = (Returned ok, w')
    /\ handle supabase (ClickDelete bookmarkId) h w = (Returned h', w')
    /\ ok = match supabase, outage (backend w) with
            | Some _, None => true
            | _, _ => false
            end
    /\ if ok
       then present bookmarkId (bookmarks h') = false
            /\ bookmarks h' =
               List.filter (fun b => negb (id b =? bookmarkId)) (bookmarks h)
       else h' = h.
Proof.
  destruct supabase as [c|]; run_async.
  - destruct (outage (backend w)) as [e|] eqn:E; simpl.
    + exists false. do 2 eexists. repeat split.
    + exists true. do 2 eexists. repeat split.
      apply present_filter_out.
  - exists false. do 2 eexists. repeat split.
Qed.

(** C3 (code at the failing input): after a successful create, the optimistic
    insert puts the returned record at the head; once the insert event for
    the same record has been applied as well, in either order, the record is
    in the list twice. *)
Theorem create_then_insert_event (c : Client) (u : User.t)
        (ttl link : string) (w : World)
        (Hup : outage (backend w) = None) :
  exists nb acts w1 evs w2,
    addBookmark (Some c) (User.id u) ttl link w = (Returned (Some nb), w1)
    /\ handleAddBookmark (Some c) (Some u) ttl link w = (Returned acts, w1)
    /\ realtimeCallback (insert_event nb) w1 = (Returned evs, w2)
    /\ forall h,
         bookmarks (reduce acts h) = nb :: bookmarks h
         /\ bookmarks (reduce (acts ++ evs) h) = nb :: nb :: bookmarks h
         /\ bookmarks (reduce (evs ++ acts) h) = nb :: nb :: bookmarks h
         /\ occurrences (id nb) (bookmarks (reduce (acts ++ evs) h))
            = 2 + occurrences (id nb) (bookmarks h).
Proof.
  run_async. rewrite Hup. simpl.
  do 5 eexists. split; [reflexivity|]. split; [reflexivity|].
  split; [reflexivity|].
  intro h. simpl. repeat split.
  unfold occurrences. simpl. now rewrite String.eqb_refl.
Qed.

(** The create of "Example" by alice on the working service. *)
Lemma create_then_insert_event_witness :
  outage (backend world_up) = None
  /\ exists nb acts w1 evs w2,
       addBookmark (Some client0) (User.id alice) "Example"
                   "https://example.com" world_up
       = (Returned (Some nb), w1)
       /\ handleAddBookmark (Some client0) (Some alice) "Example"
                            "https://example.com" world_up
          = (Returned acts, w1)
       /\ realtimeCallback (insert_event nb) w1 = (Returned evs, w2)
       /\ forall h,
            bookmarks (reduce acts h) = nb :: bookmarks h
            /\ bookmarks (reduce (acts ++ evs) h) = nb :: nb :: bookmarks h
            /\ bookmarks (reduce (evs ++ acts) h) = nb :: nb :: bookmarks h
            /\ occurrences (id nb) (bookmarks (reduce (acts ++ evs) h))
               = 2 + occurrences (id nb) (bookmarks h).
Proof.
  split; [reflexivity|].
  apply (create_then_insert_event client0 alice "Example"
           "https://example.com" world_up).
  reflexivity.
Defined.

(** C8: when the service answers the insert with an error, [addBookmark]
    returns [null] (it does not throw) after logging the error, the service
    is left as it was, and the create request leaves the component state,
    the list included, unchanged. *)
Theorem failed_create_changes_nothing (c : Client) (userId ttl link e : string)
        (w : World)
        (Hdown : outage (backend w) = Some e) :
  exists w',
    addBookmark (Some c) userId ttl link w = (Returned None, w')
    /\ backend w' = backend w
    /\ trace w' = (trace w ++ [FromInsert "bookmarks" userId ttl link;
                               ConsoleError "Error adding bookmark:" e])%list
    /\ forall h, exists w'',
         handle (Some c) (Submit ttl link) h w = (Returned h, w'')
         /\ backend w'' = backend w.
Proof.
  run_async. rewrite Hdown. simpl.
  eexists. split; [reflexivity|]. simpl.
  split; [reflexivity|].
  split; [now rewrite <- app_assoc|].
  intro h. destruct (user h) as [usr|]; simpl.
  - rewrite Hdown. simpl. eexists. split; reflexivity.
  - eexists. split; reflexivity.
Qed.

(** The create of "Example" while the service answers 503. *)
Lemma failed_create_changes_nothing_witness :
  outage (backend world_down) = Some "503"
  /\ exists w',
       addBookmark (Some client0) "u1" "Example" "https://example.com"
                   world_down
       = (Returned None, w')
       /\ backend w' = backend world_down
       /\ trace w' = (trace world_down
                      ++ [FromInsert "bookmarks" "u1" "Example"
                                     "https://example.com";
                          ConsoleError "Error adding bookmark:" "503"])%list
       /\ forall h, exists w'',
            handle (Some client0) (Submit "Example" "https://example.com") h
                   world_down
            = (Returned h, w'')
            /\ backend w'' = backend world_down.
Proof.
  split; [reflexivity|].
  apply (failed_create_changes_nothing client0 "u1" "Example"
           "https://example.com" world_down).
  reflexivity.
Defined.

(** C10: with no principal signed in, the create request dispatches nothing
    and [loadBookmarks] dispatches nothing, and neither touches the world:
    no request is sent, nothing is logged, and the component state is the
    one before. *)
Theorem no_principal_no_op (supabase : option Client) (ttl link : string)
        (l : list Bookmark) (ld : bool) (ce : option string)
        (sub : option Channel) (w : World) :
  handleAddBookmark supabase None ttl link w = (Returned [], w)
  /\ loadBookmarks supabase None w = (Returned [], w)
  /\ handle supabase (Submit ttl link) (mkHome None l ld ce sub) w
     = (Returned (mkHome None l ld ce sub), w)
  /\ remote_ops w w = [].
Proof.
  repeat split.
  unfold remote_ops. now rewrite skipn_all.
Qed.

(** ** The store client *)

Example order_desc_sample :
  order_desc [bmA; bmC; bmB] = [bmC; bmB; bmA].
Proof. reflexivity. Qed.

Lemma insert_desc_perm (b : Bookmark) (l : list Bookmark) :
  Permutation (insert_desc b l) (b :: l).
Proof.
  induction l as [|c l IH]; simpl; [apply Permutation_refl|].
  destruct (created_at c <=? created_at b)%Z; [apply Permutation_refl|].
  eapply perm_trans; [apply perm_skip, IH|apply perm_swap].
Qed.

Lemma order_desc_perm (l : list Bookmark) : Permutation (order_desc l) l.
Proof.
  induction l as [|b l IH]; simpl; [constructor|].
  eapply perm_trans; [apply insert_desc_perm|now apply perm_skip].
Qed.

Lemma insert_desc_sorted (b : Bookmark) (l : list Bookmark) :
  newest_first l -> newest_first (insert_desc b l).
Proof.
  unfold newest_first.
  induction l as [|c l IH]; simpl; intro Hs.
  - repeat constructor.
  - inversion Hs as [|? ? Hl Hc]; subst.
    destruct (created_at c <=? created_at b)%Z eqn:E.
    + apply Z.leb_le in E. constructor; [exact Hs|].
      constructor; [exact E|].
      eapply Forall_impl; [|exact Hc]. simpl. intros x Hx. lia.
    + apply Z.leb_gt in E. constructor; [now apply IH|].
      eapply Permutation_Forall;
        [apply Permutation_sym, insert_desc_perm|].
      constructor; [lia|exact Hc].
Qed.

Lemma order_desc_sorted (l : list Bookmark) : newest_first (order_desc l).
Proof.
  induction l as [|b l IH]; simpl; [constructor|].
  now apply insert_desc_sorted.
Qed.

Lemma owned_by_perm (uid : string) (l l' : list Bookmark) :
  Permutation l l' -> owned_by uid l = true -> owned_by uid l' = true.
Proof.
  unfold owned_by. intros Hp H.
  apply forallb_forall. intros x Hx.
  apply (proj1 (forallb_forall _ _) H).
  eapply Permutation_in; [apply Permutation_sym, Hp|exact Hx].
Qed.

Lemma owned_by_filter (uid : string) (l : list Bookmark) :
  owned_by uid (List.filter (fun r => user_id r =? uid) l) = true.
Proof.
  unfold owned_by. apply forallb_forall. intros x Hx.
  now apply filter_In in Hx.
Qed.

Lemma owned_by_select (uid : string) (l : list Bookmark) :
  owned_by uid (order_desc (List.filter (fun r => user_id r =? uid) l)) = true.
Proof.
  eapply owned_by_perm;
    [apply Permutation_sym, order_desc_perm|apply owned_by_filter].
Qed.

(** C7: [getBookmarks] always returns (it never throws) and leaves the
    service as it was.  When the service answers the query, the result is
    the owner's rows and only those, newest first; when the service reports
    an error, the result is the empty list and the error has been logged
    after the request; with no client, the result is the empty list and
    nothing is sent. *)
Theorem list_contract (supabase : option Client) (ownerId : string)
        (w : World) :
  exists l w',
    getBookmarks supabase ownerId w = (Returned l, w')
    /\ backend w' = backend w
    /\ match supabase, outage (backend w) with
       | None, _ => l = [] /\ w' = w
       | Some _, Some e =>
           l = []
           /\ trace w' =
              (trace w ++ [FromSelect "bookmarks" ownerId;
                           ConsoleError "Error fetching bookmarks:" e])%list
       | Some _, None =>
           Permutation l
             (List.filter (fun r => user_id r =? ownerId) (rows (backend w)))
           /\ newest_first l
           /\ owned_by ownerId l = true
           /\ trace w' = (trace w ++ [FromSelect "bookmarks" ownerId])%list
       end.
Proof.
  destruct supabase as [c|]; run_async.
  - destruct (outage (backend w)) as [e|]; simpl.
    + do 2 eexists. split; [reflexivity|]. simpl.
      repeat split. now rewrite <- app_assoc.
    + do 2 eexists. split; [reflexivity|]. simpl.
      split; [reflexivity|].
      split; [apply order_desc_perm|].
      split; [apply order_desc_sorted|].
      split; [apply owned_by_select|reflexivity].
  - do 2 eexists. repeat split.
Qed.

(** The client is [null] exactly when a credential is missing or empty. *)
Lemma createSupabaseClient_absent
      (createClient : string -> string -> nat -> Outcome Client) (env : Env)
      (w : World) :
  supabaseUrl env = EmptyString \/ supabaseAnonKey env = EmptyString <->
  exists w', createSupabaseClient createClient env w = (Returned None, w').
Proof.
  unfold createSupabaseClient.
  destruct (String.eqb_spec (supabaseUrl env) EmptyString) as [Eu|Eu];
    destruct (String.eqb_spec (supabaseAnonKey env) EmptyString) as [Ek|Ek];
    simpl; split; intro H; try (eexists; reflexivity); try tauto.
  destruct H as [w' H].
  destruct (createClient (supabaseUrl env) (supabaseAnonKey env) 10);
    discriminate H.
Qed.

(** C9 (the claim fails): without a client, sign-in throws. *)
Lemma unconfigured_sign_in_throws :
  signInWithGoogle None world_up = (Thrown "Supabase not configured", world_up).
Proof. reflexivity. Qed.

(** C9 (amended): without a client, [getBookmarks], [addBookmark] and
    [deleteBookmark] return the empty list, [null] and [false];
    [signInWithGoogle], [signOut] and [subscribeToBookmarks] throw; none of
    the six sends a request or logs anything (the world is untouched).  The
    component itself records the configuration error on mount and does not
    call [subscribeToBookmarks]. *)
Theorem unconfigured_surface (CB : Type) (callback : CB)
        (userId ttl link bookmarkId : string) (u : option User.t)
        (w : World) :
  getBookmarks None userId w = (Returned [], w)
  /\ addBookmark None userId ttl link w = (Returned None, w)
  /\ deleteBookmark None bookmarkId w = (Returned false, w)
  /\ signInWithGoogle None w = (Thrown "Supabase not configured", w)
  /\ signOut None w = (Thrown "Supabase not configured", w)
  /\ subscribeToBookmarks None userId callback w
     = (Thrown "Supabase not initialized", w)
  /\ subscriptionEffect None u w = (Returned None, w)
  /\ checkUser None w
     = (Returned
          [SetConfigError
             (Some "Supabase is not configured. Please set up your environment variables.");
           SetLoading false], w).
Proof.
  repeat split. now destruct u.
Qed.

(** ** Principal change *)

Lemma subscribed_snoc (tp : string) (t : list Effect) (e : Effect) :
  subscribed tp (t ++ [e])
  = match e with
    | ChannelSubscribe ch => if topic ch =? tp then true else subscribed tp t
    | ChannelUnsubscribe ch =>
        if topic ch =? tp then false else subscribed tp t
    | _ => subscribed tp t
    end.
Proof.
  unfold subscribed. rewrite fold_left_app. reflexivity.
Qed.

Lemma nth_error_put_flight (n : nat) (f g : Flight) (l : list Flight) :
  nth_error l n = Some g ->
  nth_error (put_flight n f l) n = Some f.
Proof.
  intro H. unfold put_flight.
  assert (Hlt : n < length l) by (apply nth_error_Some; congruence).
  rewrite nth_error_app2; rewrite length_firstn, Nat.min_l by lia; [|lia].
  now rewrite Nat.sub_diag.
Qed.

Lemma getBookmarks_owned (supabase : option Client) (uid : string)
      (d : list Bookmark) (w w' : World) :
  getBookmarks supabase uid w = (Returned d, w') -> owned_by uid d = true.
Proof.
  destruct supabase as [c|]; run_async;
    [destruct (outage (backend w)) as [e|]; simpl|];
    intro H; inversion H; subst; first [reflexivity | apply owned_by_select].
Qed.

Lemma getBookmarks_returns (supabase : option Client) (uid : string)
      (w : World) :
  exists d w', getBookmarks supabase uid w = (Returned d, w').
Proof.
  destruct supabase as [c|]; run_async;
    [destruct (outage (backend w)) as [e|]; simpl|];
    do 2 eexists; reflexivity.
Qed.

(** [loadBookmarks] awaited in one go is the answer followed by the
    continuation. *)
Lemma loadBookmarks_answer_then_land (supabase : option Client) (u : User.t)
      (h : Home) (w : World) :
  exists d w',
    getBookmarks supabase (User.id u) w = (Returned d, w')
    /\ loadBookmarks supabase (Some u) w
       = (Returned [SetBookmarks (fun _ => d)], w')
    /\ reduce [SetBookmarks (fun _ => d)] h
       = dispatch h (SetBookmarks (fun _ => d)).
Proof.
  destruct (getBookmarks_returns supabase (User.id u) w) as (d & w' & Hg).
  exists d, w'. split; [exact Hg|]. split; [|reflexivity].
  unfold loadBookmarks, bind, ret. now rewrite Hg.
Qed.

(** C5 (the claim fails): switching from alice to bob leaves alice's two
    records in the list at the moment of the switch; and when alice's load
    was still in flight at the switch and its answer comes back after bob's,
    the page ends, with nothing left in flight, as bob's page showing
    alice's records. *)
Lemma principal_change_keeps_stale_rows :
  (exists h' w',
      principalChange (Some client0) (Some bob) home_alice world_up
      = (Returned (h', [Asked bob]), w')
      /\ user h' = Some bob
      /\ bookmarks h' = [bmB; bmA])
  /\ exists h w,
       run (Some client0)
           [Principal (Some alice); Principal (Some bob);
            Answer 1; Land 1; Answer 0; Land 0]
           (mkPage initialHome []) world_up
       = (Returned (mkPage h []), w)
       /\ user h = Some bob
       /\ subscription h = Some (channel_for bob)
       /\ bookmarks h = [bmB; bmA]
       /\ owned_by (User.id bob) (bookmarks h) = false.
Proof.
  split.
  - do 2 eexists. split; [reflexivity|]. split; reflexivity.
  - do 2 eexists. split; [reflexivity|]. repeat split.
Qed.

(** C5 (amended): on a page that knows its channel, a principal change never
    throws: the channel that was live is unsubscribed first, the state holds
    the new principal, and the live channel is the one filtered on the new
    principal, or none when nobody is signed in.  With nobody signed in the
    list is emptied at once and no load is started; with a principal the
    list is left as it was and exactly one load, for that principal, is left
    in flight.  When the request of a load for [B] is answered and its
    continuation runs, the list becomes the answer, which holds only records
    owned by [B], whatever the list was.  The sign-out control with a client
    ends with no principal, an empty list, no channel, the former channel
    unsubscribed and no load started; without a client it throws. *)
Theorem principal_change_resets (supabase : option Client)
        (s : option User.t) (B : User.t) (h : Home) (p : Page) (n : nat)
        (w wl : World)
        (Hc : coherent h w)
        (Hn : nth_error (flights p) n = Some (Asked B)) :
  (exists h' fired w',
      principalChange supabase s h w = (Returned (h', fired), w')
      /\ user h' = s
      /\ match s with
         | None => bookmarks h' = [] /\ fired = []
         | Some u => bookmarks h' = bookmarks h /\ fired = [Asked u]
         end
      /\ match subscription h with
         | Some ch =>
             exists rest,
               trace w' = (trace w ++ ChannelUnsubscribe ch :: rest)%list
         | None => True
         end
      /\ subscription h' = match s, supabase with
                           | Some u, Some _ => Some (channel_for u)
                           | _, _ => None
                           end
      /\ coherent h' w')
  /\ (exists d p1 w1 p2,
         getBookmarks supabase (User.id B) wl = (Returned d, w1)
         /\ step supabase (Answer n) p wl = (Returned p1, w1)
         /\ step supabase (Land n) p1 w1 = (Returned p2, w1)
         /\ bookmarks (home p2) = d
         /\ owned_by (User.id B) d = true)
  /\ match supabase with
     | Some _ =>
         exists h' w',
           clickSignOut supabase h w = (Returned (h', []), w')
           /\ user h' = None
           /\ bookmarks h' = []
           /\ subscription h' = None
           /\ match subscription h with
              | Some ch => In (ChannelUnsubscribe ch) (trace w')
              | None => True
              end
     | None => clickSignOut supabase h w = (Thrown "Supabase not configured", w)
     end.
Proof.
  split; [|split].
  - unfold coherent in *.
    destruct s as [u|]; destruct supabase as [c|];
      destruct (subscription h) as [ch|] eqn:Es;
      unfold principalChange, rerenderUser, userEffect, subscriptionEffect,
        subscriptionCleanup, subscribeToBookmarks, authStateChange, bind,
        emit, ret, throw;
      simpl; rewrite Es; simpl;
      try rewrite subscribed_snoc; try rewrite Hc; simpl;
      do 3 eexists; (split; [reflexivity|]); simpl;
      (split; [reflexivity|]);
      (split; [split; reflexivity|]);
      (split; [first [exact I | eexists; rewrite <- ?app_assoc; reflexivity]|]);
      (split; [reflexivity|]);
      unfold coherent; simpl;
      first [reflexivity | assumption
             | rewrite subscribed_snoc, Hc; reflexivity].
  - destruct (getBookmarks_returns supabase (User.id B) wl) as (d & w1 & Hg).
    exists d, (mkPage (home p) (put_flight n (Got d) (flights p))), w1.
    eexists. split; [exact Hg|].
    unfold step. rewrite Hn. unfold bind, ret. rewrite Hg. simpl.
    split; [reflexivity|].
    rewrite nth_error_put_flight with (g := Asked B) by exact Hn.
    split; [reflexivity|]. simpl.
    split; [reflexivity|]. eapply getBookmarks_owned; exact Hg.
  - destruct supabase as [c|]; [|reflexivity].
    unfold coherent in Hc.
    destruct (subscription h) as [ch|] eqn:Es;
      unfold clickSignOut, handleSignOut, signOut, rerenderUser, userEffect,
        subscriptionEffect, subscriptionCleanup, auth_sign_out, bind, request,
        emit, ret;
      simpl; destruct (outage (backend w)) as [e|]; simpl; rewrite Es; simpl;
      do 2 eexists; (split; [reflexivity|]); simpl;
      repeat split;
      repeat rewrite in_app_iff; simpl; tauto.
Qed.

(** Alice's page when bob signs in, and a page with bob's load in flight. *)
Lemma principal_change_resets_witness :
  coherent home_alice world_up
  /\ nth_error (flights (mkPage home_alice [Asked bob])) 0 = Some (Asked bob)
  /\ (exists h' fired w',
         principalChange (Some client0) (Some bob) home_alice world_up
         = (Returned (h', fired), w')
         /\ user h' = Some bob
         /\ (bookmarks h' = bookmarks home_alice /\ fired = [Asked bob])
         /\ (exists rest,
                trace w'
                = (trace world_up
                   ++ ChannelUnsubscribe (channel_for alice) :: rest)%list)
         /\ subscription h' = Some (channel_for bob)
         /\ coherent h' w')
  /\ (exists d p1 w1 p2,
         getBookmarks (Some client0) (User.id bob) world_up = (Returned d, w1)
         /\ step (Some client0) (Answer 0) (mkPage home_alice [Asked bob])
                 world_up
            = (Returned p1, w1)
         /\ step (Some client0) (Land 0) p1 w1 = (Returned p2, w1)
         /\ bookmarks (home p2) = d
         /\ owned_by (User.id bob) d = true)
  /\ exists h' w',
       clickSignOut (Some client0) home_alice world_up
       = (Returned (h', []), w')
       /\ user h' = None
       /\ bookmarks h' = []
       /\ subscription h' = None
       /\ In (ChannelUnsubscribe (channel_for alice)) (trace w').
Proof.
  assert (Hc : coherent home_alice world_up) by reflexivity.
  assert (Hn : nth_error (flights (mkPage home_alice [Asked bob])) 0
               = Some (Asked bob)) by reflexivity.
  split; [exact Hc|]. split; [exact Hn|].
  apply (@principal_change_resets (Some client0) (Some bob) bob home_alice
           (mkPage home_alice [Asked bob]) 0 world_up world_up Hc Hn).
Defined.

(** ** Reachable states *)














Lemma running_loaded :
  running (Some client0) alice (mkPage initialHome []) world_loaded
          (mkPage home_loaded []).
Proof.
  eapply run_step with (s := Land 0).
  - eapply run_step with (s := Answer 0).
    + eapply run_principal with (w := world_up). reflexivity.
    + reflexivity.
    + reflexivity.
  - reflexivity.
  - reflexivity.
Qed.


(** C4 (code at the failing input): signed in as alice on a working service,
    submitting one bookmark and then receiving the insert event for it is a
    reachable state whose list, all owned by alice, holds the new id twice. *)
Theorem reachable_duplicate_id :
  exists w h,
    reachable (Some client0) alice w h
    /\ bookmarks h =
       [mkBookmark "n" "u1" "Example" "https://example.com" 10;
        mkBookmark "n" "u1" "Example" "https://example.com" 10;
        bmB; bmA]
    /\ occurrences "n" (bookmarks h) = 2
    /\ ~ NoDup (List.map id (bookmarks h))
    /\ owned_by (User.id alice) (bookmarks h) = true.
Proof.
  do 2 eexists. split.
  - exists (mkPage initialHome []). eexists.
    eapply run_step with
      (s := Do (Deliver
                  (insert_event
                     (mkBookmark "n" "u1" "Example" "https://example.com" 10)))).
    + eapply run_step with
        (s := Do (Submit "Example" "https://example.com")).
      * exact running_loaded.
      * reflexivity.
      * reflexivity.
    + reflexivity.
    + reflexivity.
  - simpl. split; [reflexivity|]. split; [reflexivity|].
    split; [|reflexivity].
    intro H. inversion H as [|x l Hn _]; subst.
    apply Hn. now left.
Qed.

(** * Further properties of the code *)

(** ** The realtime callback *)

(** X1: delivering the same update event twice gives the state of delivering
    it once. *)
Theorem update_event_idempotent (supabase : option Client) (b o : Bookmark)
        (h : Home) (w : World) :
  exists h1 w1 h2 w2,
    handle supabase (Deliver (update_event b o)) h w = (Returned h1, w1)
    /\ handle supabase (Deliver (update_event b o)) h1 w1 = (Returned h2, w2)
    /\ bookmarks h2 = bookmarks h1.
Proof.
  do 4 eexists. split; [reflexivity|]. split; [reflexivity|].
  simpl. rewrite map_map. apply map_ext. intro c.
  destruct (id c =? id b) eqn:E; [now rewrite String.eqb_refl|now rewrite E].
Qed.

(** X2: a payload whose event type is none of INSERT, DELETE and UPDATE (the
    comparison is exact, so a lower-case name is one) is logged and changes
    nothing in the component. *)
Theorem unknown_event_ignored (supabase : option Client) (p : Payload)
        (h : Home) (w : World)
        (Hi : (eventType p =? "INSERT") = false)
        (Hd : (eventType p =? "DELETE") = false)
        (Hu : (eventType p =? "UPDATE") = false) :
  handle supabase (Deliver p) h w
  = (Returned h,
     mkWorld (backend w) (window_origin w)
             (trace w ++ [ConsoleLog "Real-time update received:"])).
Proof.
  unfold handle, realtimeCallback, bind, emit, ret.
  now rewrite Hi, Hd, Hu.
Qed.

(** A lower-case event name on alice's page. *)
Lemma unknown_event_ignored_witness :
  handle (Some client0) (Deliver (mkPayload "insert" bmC empty_record))
         home_alice world_up
  = (Returned home_alice,
     mkWorld (backend world_up) (window_origin world_up)
             (trace world_up ++ [ConsoleLog "Real-time update received:"])).
Proof.
  apply (unknown_event_ignored (Some client0)
           (mkPayload "insert" bmC empty_record) home_alice world_up);
    reflexivity.
Defined.

(** X3: a delete event removes exactly the records carrying the old
    snapshot's id: a record is in the list afterwards if and only if it was
    there before with another id, and the list is shorter by the number of
    records that carried the id. *)
Theorem delete_event_removes_exactly (supabase : option Client) (o : Bookmark)
        (h : Home) (w : World) :
  exists h' w',
    handle supabase (Deliver (delete_event o)) h w = (Returned h', w')
    /\ (forall c, In c (bookmarks h') <->
                  In c (bookmarks h) /\ id c <> id o)
    /\ length (bookmarks h') + occurrences (id o) (bookmarks h)
       = length (bookmarks h).
Proof.
  do 2 eexists. split; [reflexivity|]. simpl. split.
  - intro c. rewrite filter_In, negb_true_iff, String.eqb_neq. tauto.
  - unfold occurrences.
    induction (bookmarks h) as [|c l IH]; simpl; [reflexivity|].
    destruct (id c =? id o); simpl; lia.
Qed.

(** X4: one delete event undoes any number of deliveries of the insert event
    for the same record: after the insert event twice and then the delete
    event, the list is the original one without that id. *)
Theorem delete_event_after_double_insert (supabase : option Client)
        (b : Bookmark) (h : Home) (w : World) :
  exists h1 w1 h2 w2 h3 w3,
    handle supabase (Deliver (insert_event b)) h w = (Returned h1, w1)
    /\ handle supabase (Deliver (insert_event b)) h1 w1 = (Returned h2, w2)
    /\ handle supabase (Deliver (delete_event b)) h2 w2 = (Returned h3, w3)
    /\ bookmarks h3
       = List.filter (fun c => negb (id c =? id b)) (bookmarks h)
    /\ present (id b) (bookmarks h3) = false.
Proof.
  do 6 eexists. split; [reflexivity|]. split; [reflexivity|].
  split; [reflexivity|].
  simpl. rewrite String.eqb_refl. simpl.
  split; [reflexivity|apply present_filter_out].
Qed.

Lemma newest_first_filter (p : Bookmark -> bool) (l : list Bookmark) :
  newest_first l -> newest_first (List.filter p l).
Proof.
  unfold newest_first.
  induction l as [|c l IH]; simpl; intro Hs; [constructor|].
  inversion Hs as [|? ? Hl Hc]; subst.
  destruct (p c); [|now apply IH].
  constructor; [now apply IH|].
  apply Forall_forall. intros x Hx. apply filter_In in Hx as [Hx _].
  exact (proj1 (Forall_forall _ _) Hc x Hx).
Qed.

Lemma handle_delete_cases (supabase : option Client) (bookmarkId : string)
      (h : Home) (w : World) :
  exists h' w',
    handle supabase (ClickDelete bookmarkId) h w = (Returned h', w')
    /\ (bookmarks h'
        = List.filter (fun b => negb (id b =? bookmarkId)) (bookmarks h)
        \/ bookmarks h' = bookmarks h).
Proof.
  destruct supabase as [c|]; run_async;
    [destruct (outage (backend w)) as [e|]; simpl|];
    do 2 eexists; (split; [reflexivity|]); simpl; tauto.
Qed.

(** X5: a list that is newest first stays newest first under a delete
    request and under a delete event: removal never reorders what is left. *)
Theorem delete_keeps_newest_first (supabase : option Client)
        (bookmarkId : string) (o : Bookmark) (h : Home) (w : World)
        (Hs : newest_first (bookmarks h)) :
  (exists h' w',
      handle supabase (ClickDelete bookmarkId) h w = (Returned h', w')
      /\ newest_first (bookmarks h'))
  /\ (exists h' w',
         handle supabase (Deliver (delete_event o)) h w = (Returned h', w')
         /\ newest_first (bookmarks h')).
Proof.
  split.
  - destruct (handle_delete_cases supabase bookmarkId h w)
      as (h' & w' & Hh & [Hb|Hb]);
      exists h', w'; (split; [exact Hh|]); rewrite Hb;
      [now apply newest_first_filter|exact Hs].
  - do 2 eexists. split; [reflexivity|]. simpl.
    now apply newest_first_filter.
Qed.

(** Alice's two bookmarks, the newer first. *)
Lemma delete_keeps_newest_first_witness :
  newest_first (bookmarks home_alice)
  /\ (exists h' w',
         handle (Some client0) (ClickDelete "a") home_alice world_up
         = (Returned h', w')
         /\ newest_first (bookmarks h'))
  /\ (exists h' w',
         handle (Some client0) (Deliver (delete_event bmA)) home_alice world_up
         = (Returned h', w')
         /\ newest_first (bookmarks h')).
Proof.
  assert (Hs : newest_first (bookmarks home_alice)).
  { unfold newest_first. simpl. repeat constructor. simpl. lia. }
  split; [exact Hs|].
  apply (delete_keeps_newest_first (Some client0) "a" bmA home_alice world_up
           Hs).
Defined.

(** ** What the handlers touch *)

Lemma remote_ops_app (w : World) (be : Backend) (o : option string)
      (es : list Effect) :
  remote_ops w (mkWorld be o (trace w ++ es)) = List.filter is_remote es.
Proof.
  unfold remote_ops. simpl.
  now rewrite skipn_app, skipn_all, Nat.sub_diag.
Qed.

Lemma remote_ops_same (w : World) : remote_ops w w = [].
Proof. unfold remote_ops. now rewrite skipn_all. Qed.

Lemma handle_frame (supabase : option Client) (i : Input)
        (h : Home) (w : World) :
  exists h' w',
    handle supabase i h w = (Returned h', w')
    /\ user h' = user h
    /\ loading h' = loading h
    /\ configError h' = configError h
    /\ subscription h' = subscription h
    /\ window_origin w' = window_origin w.
Proof.
  destruct i as [ttl link|bookmarkId|p].
  - run_async. destruct (user h) as [u|] eqn:Eu; destruct supabase as [c|];
      simpl;
      try (destruct (outage (backend w)) as [e|]; simpl);
      do 2 eexists; (split; [reflexivity|]); repeat split; exact Eu.
  - run_async. destruct supabase as [c|]; simpl;
      try (destruct (outage (backend w)) as [e|]; simpl);
      do 2 eexists; (split; [reflexivity|]); repeat split.
  - unfold handle, realtimeCallback, bind, emit, ret.
    destruct (eventType p =? "INSERT");
      [|destruct (eventType p =? "DELETE");
        [|destruct (eventType p =? "UPDATE")]];
      do 2 eexists; (split; [reflexivity|]); repeat split.
Qed.

(** X6: no input handler throws, with or without a client, and each changes
    nothing of the component but the list: the principal, the loading flag,
    the configuration error and the live channel are the ones before. *)
Theorem handle_changes_only_the_list (supabase : option Client) (i : Input)
        (h : Home) (w : World) :
  exists h' w',
    handle supabase i h w = (Returned h', w')
    /\ user h' = user h
    /\ loading h' = loading h
    /\ configError h' = configError h
    /\ subscription h' = subscription h
    /\ window_origin w' = window_origin w.
Proof.
  destruct (handle_frame supabase i h w) as (h' & w' & Hh & Hrest).
  exists h', w'. split; [exact Hh|exact Hrest].
Qed.

(** X7: one user action makes at most one request, and a failed one is not
    sent again.  A create sends exactly one insert carrying the principal's
    id and the title and url as given, when a principal and a client are
    there, and nothing otherwise; a delete sends exactly one delete for the
    id when a client is there; a delivered payload sends nothing. *)
Theorem handle_requests (supabase : option Client) (i : Input) (h : Home)
        (w : World) :
  exists h' w',
    handle supabase i h w = (Returned h', w')
    /\ remote_ops w w' =
       match i, supabase with
       | Submit ttl link, Some _ =>
           match user h with
           | Some u => [FromInsert "bookmarks" (User.id u) ttl link]
           | None => []
           end
       | ClickDelete bookmarkId, Some _ => [FromDelete "bookmarks" bookmarkId]
       | _, _ => []
       end.
Proof.
  destruct i as [ttl link|bookmarkId|p].
  - run_async. destruct (user h) as [u|]; destruct supabase as [c|]; simpl;
      try (destruct (outage (backend w)) as [e|]; simpl);
      do 2 eexists; (split; [reflexivity|]);
      repeat rewrite <- app_assoc;
      first [apply remote_ops_same | now rewrite remote_ops_app].
  - run_async. destruct supabase as [c|]; simpl;
      try (destruct (outage (backend w)) as [e|]; simpl);
      do 2 eexists; (split; [reflexivity|]);
      repeat rewrite <- app_assoc;
      first [apply remote_ops_same | now rewrite remote_ops_app].
  - unfold handle, realtimeCallback, bind, emit, ret.
    assert (Hr : remote_ops w
                   (mkWorld (backend w) (window_origin w)
                      (trace w ++ [ConsoleLog "Real-time update received:"]))
                 = []) by now rewrite remote_ops_app.
    destruct (eventType p =? "INSERT");
      [|destruct (eventType p =? "DELETE");
        [|destruct (eventType p =? "UPDATE")]];
      do 2 eexists; (split; [reflexivity|]);
      destruct supabase; exact Hr.
Qed.

(** ** Mounting and rendering *)

(** X8: [checkUser] on mount never leaves the spinner on.  Without a client the page is
    the configuration notice and nothing is sent; with a client one session
    lookup is sent and the page is the signed-in one (with an empty list,
    not yet loaded) when the service holds a session and the invitation to
    sign in otherwise. *)
Theorem mount_view (supabase : option Client) (w : World) :
  exists h w',
    mount supabase w = (Returned h, w')
    /\ loading h = false
    /\ render h =
       match supabase with
       | None =>
           ConfigurationRequired
             "Supabase is not configured. Please set up your environment variables."
       | Some _ =>
           match session (backend w) with
           | Some u => SignedIn u []
           | None => GetStarted
           end
       end
    /\ remote_ops w w' = match supabase with
                         | None => []
                         | Some _ => [AuthGetSession]
                         end.
Proof.
  destruct supabase as [c|]; unfold mount, checkUser, bind, query, request, ret;
    simpl; do 2 eexists; (split; [reflexivity|]); simpl;
    (split; [reflexivity|]).
  - split; [|now rewrite remote_ops_app].
    unfold render, auth_get_session. simpl.
    now destruct (session (backend w)).
  - split; [reflexivity|apply remote_ops_same].
Qed.

(** X9: once the configuration notice is what the page shows, no submitted
    form, delete click or delivered payload makes the page show anything
    else. *)
Theorem configuration_notice_stays (supabase : option Client) (i : Input)
        (h : Home) (w : World) (msg : string)
        (Hn : render h = ConfigurationRequired msg) :
  exists h' w',
    handle supabase i h w = (Returned h', w')
    /\ render h' = ConfigurationRequired msg.
Proof.
  destruct (handle_frame supabase i h w)
    as (h' & w' & Hh & Hu & Hl & Hc & _).
  exists h', w'. split; [exact Hh|].
  unfold render in *. rewrite Hl, Hc.
  destruct (loading h); [discriminate Hn|].
  destruct (truthy (configError h)); [exact Hn|].
  destruct (user h); discriminate Hn.
Qed.

(** The page right after mounting without credentials. *)
Lemma configuration_notice_stays_witness :
  render home_unconfigured
  = ConfigurationRequired "Supabase is not configured."
  /\ exists h' w',
       handle None (Submit "Example" "https://example.com") home_unconfigured
              world_up
       = (Returned h', w')
       /\ render h' = ConfigurationRequired "Supabase is not configured.".
Proof.
  split; [reflexivity|].
  apply (configuration_notice_stays None
           (Submit "Example" "https://example.com") home_unconfigured
           world_up).
  reflexivity.
Defined.

(** X10: the sign-in control never changes the component state, whatever the
    identity provider answers, and leaves the service as it was.  It sends
    one OAuth request for google whose redirect target is the page origin
    followed by /auth/callback, or no target when there is no window.
    Without a client it throws and nothing is sent. *)
Theorem sign_in_click (c : Client) (h : Home) (w : World) :
  (exists w',
      clickSignIn (Some c) h w = (Returned h, w')
      /\ backend w' = backend w
      /\ trace w' =
         (trace w
          ++ [AuthSignInWithOAuth "google"
                (match window_origin w with
                 | Some origin => Some (origin ++ "/auth/callback")%string
                 | None => None
                 end)])%list)
  /\ clickSignIn None h w = (Thrown "Supabase not configured", w).
Proof.
  split; [|reflexivity].
  unfold clickSignIn, handleSignIn, signInWithGoogle, bind, query, request, ret.
  simpl. eexists. split; [reflexivity|]. simpl.
  split; [reflexivity|].
  now destruct (window_origin w).
Qed.

(** ** The store client against the service *)

Lemma insert_desc_newest (b : Bookmark) (l : list Bookmark) :
  Forall (fun c => (created_at c <= created_at b)%Z) l ->
  insert_desc b l = b :: l.
Proof.
  destruct l as [|c l]; simpl; [reflexivity|].
  intro H. inversion H as [|? ? Hc _]; subst.
  apply Z.leb_le in Hc. now rewrite Hc.
Qed.

Lemma filter_insert_desc (p : Bookmark -> bool) (b : Bookmark)
      (l : list Bookmark) :
  newest_first l ->
  List.filter p (insert_desc b l)
  = if p b then insert_desc b (List.filter p l) else List.filter p l.
Proof.
  unfold newest_first.
  induction l as [|c l IH]; simpl; intro Hs; [reflexivity|].
  inversion Hs as [|? ? Hl Hc]; subst.
  destruct (created_at c <=? created_at b)%Z eqn:E; simpl.
  - destruct (p b) eqn:Eb; [|reflexivity].
    destruct (p c) eqn:Ec; simpl; [now rewrite E|].
    symmetry. apply insert_desc_newest.
    apply Z.leb_le in E.
    apply Forall_forall. intros x Hx. apply filter_In in Hx as [Hx _].
    pose proof (proj1 (Forall_forall _ _) Hc x Hx) as Hxc. simpl in Hxc. lia.
  - rewrite (IH Hl).
    destruct (p c) eqn:Ec; destruct (p b) eqn:Eb; simpl;
      try rewrite E; reflexivity.
Qed.

Lemma filter_order_desc (p : Bookmark -> bool) (l : list Bookmark) :
  List.filter p (order_desc l) = order_desc (List.filter p l).
Proof.
  induction l as [|b l IH]; simpl; [reflexivity|].
  rewrite filter_insert_desc by apply order_desc_sorted.
  rewrite IH. now destruct (p b).
Qed.

Lemma filter_filter_comm {A} (p q : A -> bool) (l : list A) :
  List.filter p (List.filter q l) = List.filter q (List.filter p l).
Proof.
  induction l as [|a l IH]; simpl; [reflexivity|].
  destruct (p a) eqn:Ep; destruct (q a) eqn:Eq; simpl;
    rewrite ?Ep, ?Eq, IH; reflexivity.
Qed.

(** X12: a delete request keeps the list in step with the service: if the
    list is the user's rows as the service holds them before the request, it
    is so after it.  When the service reports an error, neither the list nor
    the rows change; when it answers, the id is in neither and
    [getBookmarks] returns the list. *)
Theorem delete_request_keeps_in_sync (c : Client) (uid bookmarkId : string)
        (h : Home) (w : World)
        (Hs : mirrors uid h w) :
  exists h' w',
    handle (Some c) (ClickDelete bookmarkId) h w = (Returned h', w')
    /\ mirrors uid h' w'
    /\ match outage (backend w) with
       | Some _ => h' = h /\ backend w' = backend w
       | None =>
           present bookmarkId (bookmarks h') = false
           /\ present bookmarkId (rows (backend w')) = false
           /\ in_sync (Some c) uid h' w'
       end.
Proof.
  unfold mirrors, in_sync in *. run_async.
  destruct (outage (backend w)) as [e|] eqn:Eo; simpl;
    do 2 eexists; (split; [reflexivity|]); simpl.
  - split; [exact Hs|]. split; reflexivity.
  - assert (Hm : List.filter (fun b => negb (id b =? bookmarkId)) (bookmarks h)
                 = order_desc
                     (List.filter (fun r => user_id r =? uid)
                        (List.filter (fun r => negb (id r =? bookmarkId))
                           (rows (backend w))))).
    { rewrite Hs, filter_order_desc, filter_filter_comm. reflexivity. }
    split; [exact Hm|].
    split; [apply present_filter_out|].
    split; [apply present_filter_out|].
    rewrite ?Eo. simpl. rewrite Hm. eexists. reflexivity.
Qed.

(** Alice's page against the sample service, answering and not. *)
Lemma delete_request_keeps_in_sync_witness :
  mirrors "u1" home_alice world_up
  /\ mirrors "u1" home_alice world_down
  /\ (exists h' w',
         handle (Some client0) (ClickDelete "a") home_alice world_up
         = (Returned h', w')
         /\ mirrors "u1" h' w'
         /\ present "a" (bookmarks h') = false
         /\ present "a" (rows (backend w')) = false
         /\ in_sync (Some client0) "u1" h' w')
  /\ exists h' w',
       handle (Some client0) (ClickDelete "a") home_alice world_down
       = (Returned h', w')
       /\ mirrors "u1" h' w'
       /\ h' = home_alice /\ backend w' = backend world_down.
Proof.
  assert (Hu : mirrors "u1" home_alice world_up) by reflexivity.
  assert (Hd : mirrors "u1" home_alice world_down) by reflexivity.
  split; [exact Hu|]. split; [exact Hd|]. split.
  - apply (@delete_request_keeps_in_sync client0 "u1" "a" home_alice world_up
             Hu).
  - apply (@delete_request_keeps_in_sync client0 "u1" "a" home_alice
             world_down Hd).
Defined.

Lemma Forall_order_desc (P : Bookmark -> Prop) (l : list Bookmark) :
  Forall P l -> Forall P (order_desc l).
Proof.
  intro H. eapply Permutation_Forall; [|exact H].
  apply Permutation_sym, order_desc_perm.
Qed.

Lemma Forall_filter_keep (P : Bookmark -> Prop) (p : Bookmark -> bool)
      (l : list Bookmark) :
  Forall P l -> Forall P (List.filter p l).
Proof.
  intro H. apply Forall_forall. intros x Hx.
  apply filter_In in Hx as [Hx _].
  exact (proj1 (Forall_forall _ _) H x Hx).
Qed.

(** X13: a create request keeps the list in step with the service, provided
    the service clock is not behind the timestamp of any stored row: if the
    list was what [getBookmarks] returns before the request, it is what
    [getBookmarks] returns after it, on success (the new record is at the
    head of both) as on failure (neither changes). *)
Theorem create_request_keeps_in_sync (c : Client) (u : User.t)
        (ttl link : string) (h : Home) (w : World)
        (Hu : user h = Some u)
        (Hs : in_sync (Some c) (User.id u) h w)
        (Hc : Forall (fun r => (created_at r <= clock (backend w))%Z)
                     (rows (backend w))) :
  exists h' w',
    handle (Some c) (Submit ttl link) h w = (Returned h', w')
    /\ in_sync (Some c) (User.id u) h' w'.
Proof.
  unfold in_sync in *. destruct Hs as [w0 Hs]. revert Hs. run_async.
  rewrite Hu.
  destruct (outage (backend w)) as [e|] eqn:Eo; simpl; intro Hs;
    inversion Hs as [[Hb Hw]]; clear Hs;
    do 2 eexists; (split; [reflexivity|]); simpl; rewrite ?Eo; simpl;
    eexists.
  - now rewrite <- Hb.
  - rewrite String.eqb_refl. simpl.
    rewrite insert_desc_newest; [reflexivity|].
    apply Forall_order_desc, Forall_filter_keep. exact Hc.
Qed.

(** Alice's page against the sample service, whose clock reads 10 while its
    rows carry 1, 2 and 3. *)
Lemma create_request_keeps_in_sync_witness :
  user home_alice = Some alice
  /\ in_sync (Some client0) (User.id alice) home_alice world_up
  /\ Forall (fun r => (created_at r <= clock (backend world_up))%Z)
            (rows (backend world_up))
  /\ exists h' w',
       handle (Some client0) (Submit "Example" "https://example.com")
              home_alice world_up
       = (Returned h', w')
       /\ in_sync (Some client0) (User.id alice) h' w'.
Proof.
  assert (Hs : in_sync (Some client0) (User.id alice) home_alice world_up)
    by (eexists; reflexivity).
  assert (Hc : Forall (fun r => (created_at r <= clock (backend world_up))%Z)
                      (rows (backend world_up)))
    by (simpl; repeat constructor; simpl; lia).
  split; [reflexivity|]. split; [exact Hs|]. split; [exact Hc|].
  apply (@create_request_keeps_in_sync client0 alice "Example"
           "https://example.com" home_alice world_up eq_refl Hs Hc).
Defined.

(** X14: what one principal creates never shows in what [getBookmarks]
    returns for another: for different user ids, the list returned for the
    second is the same before and after a create by the first. *)
Theorem create_is_private (c : Client) (creator other ttl link : string)
        (w : World)
        (Hne : (creator =? other) = false) :
  exists r w1,
    addBookmark (Some c) creator ttl link w = (Returned r, w1)
    /\ fst (getBookmarks (Some c) other w1)
       = fst (getBookmarks (Some c) other w).
Proof.
  run_async.
  destruct (outage (backend w)) as [e|] eqn:Eo; simpl;
    do 2 eexists; (split; [reflexivity|]); simpl; rewrite ?Eo; simpl;
    [reflexivity|].
  now rewrite Hne.
Qed.

(** Alice creates; bob's list is the one before. *)
Lemma create_is_private_witness :
  ("u1" =? "u2") = false
  /\ exists r w1,
       addBookmark (Some client0) "u1" "Example" "https://example.com" world_up
       = (Returned r, w1)
       /\ fst (getBookmarks (Some client0) "u2" w1)
          = fst (getBookmarks (Some client0) "u2" world_up).
Proof.
  split; [reflexivity|].
  apply (@create_is_private client0 "u1" "u2" "Example" "https://example.com"
           world_up).
  reflexivity.
Defined.

(** X15: with the service answering, a created record carries the user id,
    title and url exactly as passed (this layer rewrites none of them), and
    [getBookmarks] for that user then returns it among one record more than
    before. *)
Theorem create_then_list (c : Client) (userId ttl link : string) (w : World)
        (Hup : outage (backend w) = None) :
  exists nb w1 before w0 after w2,
    addBookmark (Some c) userId ttl link w = (Returned (Some nb), w1)
    /\ getBookmarks (Some c) userId w = (Returned before, w0)
    /\ getBookmarks (Some c) userId w1 = (Returned after, w2)
    /\ user_id nb = userId /\ title nb = ttl /\ url nb = link
    /\ In nb after
    /\ length after = S (length before).
Proof.
  run_async. rewrite Hup. simpl.
  do 6 eexists. split; [reflexivity|]. split; [reflexivity|].
  rewrite ?Hup. simpl.
  split; [reflexivity|]. simpl. rewrite ?String.eqb_refl. simpl.
  repeat split.
  - eapply Permutation_in; [apply Permutation_sym, insert_desc_perm|].
    now left.
  - rewrite (Permutation_length (insert_desc_perm _ _)). reflexivity.
Qed.

(** A create on the sample service. *)
Lemma create_then_list_witness :
  outage (backend world_up) = None
  /\ exists nb w1 before w0 after w2,
       addBookmark (Some client0) "u1" "Example" "example.com" world_up
       = (Returned (Some nb), w1)
       /\ getBookmarks (Some client0) "u1" world_up = (Returned before, w0)
       /\ getBookmarks (Some client0) "u1" w1 = (Returned after, w2)
       /\ user_id nb = "u1" /\ title nb = "Example" /\ url nb = "example.com"
       /\ In nb after
       /\ length after = S (length before).
Proof.
  split; [reflexivity|].
  apply (@create_then_list client0 "u1" "Example" "example.com" world_up).
  reflexivity.
Defined.

(** X16: with the service answering, [deleteBookmark] returns [true] whether
    or not a row with that id exists; afterwards no list returned by
    [getBookmarks] holds the id, and deleting the same id again returns
    [true] again and leaves the service as the first delete left it. *)
Theorem delete_then_list (c : Client) (bookmarkId userId : string) (w : World)
        (Hup : outage (backend w) = None) :
  exists w1 l w2 w3,
    deleteBookmark (Some c) bookmarkId w = (Returned true, w1)
    /\ getBookmarks (Some c) userId w1 = (Returned l, w2)
    /\ present bookmarkId l = false
    /\ deleteBookmark (Some c) bookmarkId w1 = (Returned true, w3)
    /\ backend w3 = backend w1.
Proof.
  run_async. rewrite Hup. simpl.
  do 4 eexists. split; [reflexivity|].
  rewrite ?Hup. simpl. split; [reflexivity|].
  split.
  - rewrite filter_filter_comm, <- filter_order_desc.
    apply present_filter_out.
  - split; [reflexivity|]. simpl.
    now rewrite filter_out_twice.
Qed.

(** Deleting "a" on the sample service. *)
Lemma delete_then_list_witness :
  outage (backend world_up) = None
  /\ exists w1 l w2 w3,
       deleteBookmark (Some client0) "a" world_up = (Returned true, w1)
       /\ getBookmarks (Some client0) "u1" w1 = (Returned l, w2)
       /\ present "a" l = false
       /\ deleteBookmark (Some client0) "a" w1 = (Returned true, w3)
       /\ backend w3 = backend w1.
Proof.
  split; [reflexivity|].
  apply (@delete_then_list client0 "a" "u1" world_up).
  reflexivity.
Defined.

(** ** Other sessions *)

(** X17: when another session of the same user creates a record and the
    insert event for it is delivered here, the list is again what
    [getBookmarks] returns, provided it was so before and the service clock
    is not behind the timestamp of any stored row. *)
Theorem insert_event_catches_up (c : Client) (uid ttl link : string)
        (h : Home) (w : World)
        (Hup : outage (backend w) = None)
        (Hs : in_sync (Some c) uid h w)
        (Hc : Forall (fun r => (created_at r <= clock (backend w))%Z)
                     (rows (backend w))) :
  exists nb be h' w',
    pg_insert uid ttl link (backend w) = (mkResponse (Some nb) None, be)
    /\ handle (Some c) (Deliver (insert_event nb)) h (elsewhere be w)
       = (Returned h', w')
    /\ in_sync (Some c) uid h' w'.
Proof.
  unfold in_sync in *. destruct Hs as [w0 Hs]. revert Hs. run_async.
  rewrite Hup. simpl. intro Hs. inversion Hs as [[Hb Hw]]; clear Hs.
  do 4 eexists. split; [reflexivity|]. split; [reflexivity|].
  simpl. rewrite String.eqb_refl. simpl. eexists.
  rewrite insert_desc_newest; [reflexivity|].
  apply Forall_order_desc, Forall_filter_keep. exact Hc.
Qed.

(** Alice's page, a create from another tab. *)
Lemma insert_event_catches_up_witness :
  outage (backend world_up) = None
  /\ in_sync (Some client0) "u1" home_alice world_up
  /\ Forall (fun r => (created_at r <= clock (backend world_up))%Z)
            (rows (backend world_up))
  /\ exists nb be h' w',
       pg_insert "u1" "Example" "https://example.com" (backend world_up)
       = (mkResponse (Some nb) None, be)
       /\ handle (Some client0) (Deliver (insert_event nb)) home_alice
                 (elsewhere be world_up)
          = (Returned h', w')
       /\ in_sync (Some client0) "u1" h' w'.
Proof.
  assert (Hs : in_sync (Some client0) "u1" home_alice world_up)
    by (eexists; reflexivity).
  assert (Hc : Forall (fun r => (created_at r <= clock (backend world_up))%Z)
                      (rows (backend world_up)))
    by (simpl; repeat constructor; simpl; lia).
  split; [reflexivity|]. split; [exact Hs|]. split; [exact Hc|].
  apply (@insert_event_catches_up client0 "u1" "Example"
           "https://example.com" home_alice world_up eq_refl Hs Hc).
Defined.

(** X18: when another session deletes a record and the delete event for it
    is delivered here, the list is again what [getBookmarks] returns,
    provided it was so before. *)
Theorem delete_event_catches_up (c : Client) (uid : string) (o : Bookmark)
        (h : Home) (w : World)
        (Hs : in_sync (Some c) uid h w) :
  exists r be h' w',
    pg_delete (id o) (backend w) = (r, be)
    /\ handle (Some c) (Deliver (delete_event o)) h (elsewhere be w)
       = (Returned h', w')
    /\ in_sync (Some c) uid h' w'.
Proof.
  unfold in_sync in *. destruct Hs as [w0 Hs]. revert Hs. run_async.
  destruct (outage (backend w)) as [e|] eqn:Eo; simpl; intro Hs;
    inversion Hs as [[Hb Hw]]; clear Hs;
    do 4 eexists; (split; [reflexivity|]); (split; [reflexivity|]);
    simpl; rewrite ?Eo; simpl; eexists.
  - reflexivity.
  - rewrite filter_order_desc, filter_filter_comm. reflexivity.
Qed.

(** Alice's page, "a" deleted from another tab. *)
Lemma delete_event_catches_up_witness :
  in_sync (Some client0) "u1" home_alice world_up
  /\ exists r be h' w',
       pg_delete (id bmA) (backend world_up) = (r, be)
       /\ handle (Some client0) (Deliver (delete_event bmA)) home_alice
                 (elsewhere be world_up)
          = (Returned h', w')
       /\ in_sync (Some client0) "u1" h' w'.
Proof.
  assert (Hs : in_sync (Some client0) "u1" home_alice world_up)
    by (eexists; reflexivity).
  split; [exact Hs|].
  apply (@delete_event_catches_up client0 "u1" bmA home_alice world_up Hs).
Defined.

(** ** The channel *)

(** X19: with a client, while no channel is subscribed on the topic
    bookmarks-changes, [subscribeToBookmarks] sends one subscription, leaves
    the service as it was, and returns the channel on that topic for every
    event of public.bookmarks with the filter user_id=eq. followed by the
    user id; that channel lets an insert or update event through exactly
    when the event's record carries that user id, and the topic is
    subscribed afterwards.  While the topic is still subscribed the call
    throws and sends nothing. *)
Theorem channel_scoped_to_owner (c : Client) (CB : Type) (callback : CB)
        (userId : string) (b o : Bookmark) (w : World) :
  let ch := mkChannel "bookmarks-changes" "*" "public" "bookmarks"
                      ("user_id=eq." ++ userId) in
  if subscribed "bookmarks-changes" (trace w)
  then exists e, subscribeToBookmarks (Some c) userId callback w = (Thrown e, w)
  else subscribeToBookmarks (Some c) userId callback w
       = (Returned ch,
          mkWorld (backend w) (window_origin w)
                  (trace w ++ [ChannelSubscribe ch]))
       /\ subscribed "bookmarks-changes" (trace w ++ [ChannelSubscribe ch])
          = true
       /\ channel_delivers ch (insert_event b) = (user_id b =? userId)
       /\ channel_delivers ch (update_event b o) = (user_id b =? userId).
Proof.
  intro ch. unfold subscribeToBookmarks, bind, emit, ret, throw.
  destruct (subscribed "bookmarks-changes" (trace w)) eqn:El.
  - eexists. reflexivity.
  - split; [reflexivity|].
    split; [now rewrite subscribed_snoc|].
    unfold channel_delivers. simpl.
    split; apply String.eqb_sym.
Qed.

Lemma running_live_channel (c : Client) (P : User.t) (p0 p : Page)
      (w : World) :
  running (Some c) P p0 w p ->
  user (home p) = Some P /\ subscription (home p) = Some (channel_for P).
Proof.
  intro R. induction R as [w p w' Hs|s w p w' p' R IH Hin Hs].
  - revert Hs.
    destruct (subscription (home p0)) as [ch|] eqn:Es;
      unfold step, principalChange, rerenderUser, userEffect,
        subscriptionEffect, subscriptionCleanup, subscribeToBookmarks,
        authStateChange, bind, emit, ret, throw;
      simpl; rewrite Es; simpl;
      match goal with
      | |- context [subscribed ?tp ?t] => destruct (subscribed tp t)
      end;
      simpl; intro H; inversion H; subst; split; reflexivity.
  - destruct IH as [IHu IHs].
    destruct s as [u| |i|n|n|be]; simpl in Hin; try discriminate Hin;
      revert Hs; unfold step.
    + unfold bind, ret.
      destruct (handle_frame (Some c) i (home p) w)
        as (h2 & w2 & Hh2 & Hu & _ & _ & Hsub & _).
      rewrite Hh2. intro H; inversion H; subst. simpl. split; congruence.
    + destruct (nth_error (flights p) n) as [[u|d]|];
        try (intro H; inversion H; subst; now split).
      unfold bind, ret.
      destruct (getBookmarks (Some c) (User.id u) w) as [[d|e] w1];
        intro H; inversion H; subst; now split.
    + destruct (nth_error (flights p) n) as [[u|d]|];
        intro H; inversion H; subst; now split.
    + intro H; inversion H; subst; now split.
Qed.

(** X20: while a principal is signed in with a configured client, the page
    holds that principal and the live channel is the one filtered on the
    principal's id, in every state reached by submitting, deleting,
    receiving events, or by other sessions changing the service. *)
Theorem reachable_live_channel (c : Client) (P : User.t) (w : World)
        (h : Home)
        (R : reachable (Some c) P w h) :
  user h = Some P /\ subscription h = Some (channel_for P).
Proof.
  destruct R as (p0 & fl & R).
  apply (running_live_channel R).
Qed.

Lemma reachable_loaded : reachable (Some client0) alice world_loaded home_loaded.
Proof.
  exists (mkPage initialHome []), []. exact running_loaded.
Qed.

(** Alice right after signing in. *)
Lemma reachable_live_channel_witness :
  reachable (Some client0) alice world_loaded home_loaded
  /\ user home_loaded = Some alice
  /\ subscription home_loaded = Some (channel_for alice).
Proof.
  split; [exact reachable_loaded|].
  apply (@reachable_live_channel client0 alice world_loaded home_loaded
           reachable_loaded).
Defined.

(** ** Creating the client *)

(** X23: when either credential is unset or empty the result is [null]
    after one warning and the library's [createClient] is not consulted;
    when both are set and not empty the result is whatever
    [createClient(url, key, { eventsPerSecond: 10 })] gives, its client or
    its exception, and nothing is logged.  Nothing is sent in either case. *)
Theorem client_needs_both_credentials
        (createClient : string -> string -> nat -> Outcome Client)
        (env : Env) (w : World) :
  exists r w',
    createSupabaseClient createClient env w = (r, w')
    /\ backend w' = backend w
    /\ remote_ops w w' = []
    /\ match NEXT_PUBLIC_SUPABASE_URL env, NEXT_PUBLIC_SUPABASE_ANON_KEY env
       with
       | Some u, Some k =>
           if (u =? EmptyString) || (k =? EmptyString)
           then r = Returned None
                /\ length (trace w') = S (length (trace w))
           else w' = w
                /\ r = match createClient u k 10 with
                       | Returned cl => Returned (Some cl)
                       | Thrown e => Thrown e
                       end
       | _, _ => r = Returned None
                 /\ length (trace w') = S (length (trace w))
       end.
Proof.
  unfold createSupabaseClient, supabaseUrl, supabaseAnonKey, bind, emit, ret.
  destruct (NEXT_PUBLIC_SUPABASE_URL env) as [u|];
    destruct (NEXT_PUBLIC_SUPABASE_ANON_KEY env) as [k|]; simpl;
    try destruct (u =? EmptyString); try destruct (k =? EmptyString); simpl;
    try destruct (createClient u k 10) as [cl|e];
    do 2 eexists; (split; [reflexivity|]); simpl;
    (split; [reflexivity|]);
    (split; [first [apply remote_ops_same | now rewrite remote_ops_app]|]);
    split; try reflexivity; rewrite length_app; simpl; lia.
Qed.
